(** * keyword_formatter.py: a shallow embedding and its properties

    The script reads two word lists named on the command line, splits each on
    whitespace and prints two blocks of quoted entries followed by a closing
    message.  Text is modelled as lists of Unicode code points, the command
    line and the file system as an explicit environment, standard output as
    a threaded state and Python exceptions as an error outcome.  Standard
    output is taken to accept every character written to it. *)

From Stdlib Require Import Ascii String NArith Bool List Lia.
Import ListNotations.

Set Implicit Arguments.

Local Open Scope string_scope.
Local Open Scope N_scope.
Local Open Scope list_scope.

(** ** Text *)

(** A Python [str] is a sequence of code points. *)
Definition char := N.
Definition str := list char.

Definition tab : char := 9.
Definition nl : char := 10.
Definition cr : char := 13.
Definition dq : char := 34.
Definition backslash : char := 92.

(** An ASCII literal of the source, as a [str]. *)
Fixpoint lit (s : string) : str :=
  match s with
  | EmptyString => []
  | String a s' => N_of_ascii a :: lit s'
  end.

(** [str.isspace] on one code point: the table of CPython's
    [_PyUnicode_IsWhitespace]. *)
Definition isspace (c : char) : bool :=
  ((9 <=? c) && (c <=? 13))
  || ((28 <=? c) && (c <=? 32))
  || (c =? 133) || (c =? 160) || (c =? 5760)
  || ((8192 <=? c) && (c <=? 8202))
  || (c =? 8232) || (c =? 8233) || (c =? 8239) || (c =? 8287)
  || (c =? 12288).

(** The token under construction is emitted when a separator or the end of
    the text is reached; an empty one is dropped. *)
Definition flush (tok : str) : list str :=
  match tok with
  | [] => []
  | _ :: _ => [tok]
  end.

(** [str.split()] without arguments: scan left to right, [tok] being the
    characters of the current token read so far. *)
Fixpoint split_from (tok : str) (s : str) : list str :=
  match s with
  | [] => flush tok
  | c :: s' =>
      if isspace c then flush tok ++ split_from [] s'
      else split_from (tok ++ [c]) s'
  end.

Definition split (s : str) : list str := split_from [] s.

(** Text mode with the default [newline=None]: on input, a carriage return,
    alone or followed by a line feed, is read as one line feed.  [after_cr]
    records that the previous character was a carriage return. *)
Fixpoint universal_newlines (after_cr : bool) (s : str) : str :=
  match s with
  | [] => []
  | c :: s' =>
      if c =? cr then nl :: universal_newlines true s'
      else if (c =? nl) && after_cr then universal_newlines false s'
      else c :: universal_newlines false s'
  end.

(** ** The environment of a run *)

(** What a path leads to: nothing that can be opened, bytes that do not
    decode under the default encoding, or decoded text. *)
Inductive file :=
| Unopenable
| Undecodable
| Text (contents : str).

Record world := World {
  argv : list str;          (* sys.argv, the program name first *)
  fs : str -> file          (* the file system, by path *)
}.

Inductive exn := IndexError | OSError | UnicodeDecodeError.

Inductive outcome (A : Type) :=
| Ok (a : A)
| Raise (e : exn).
Arguments Ok {A} a.
Arguments Raise {A} e.

(** ** The monad of the script: environment, standard output, exceptions *)

Definition M (A : Type) : Type := world -> str -> str * outcome A.

Definition ret {A} (a : A) : M A := fun _ out => (out, Ok a).

Definition bind {A B} (m : M A) (k : A -> M B) : M B :=
  fun w out =>
    match m w out with
    | (out', Ok a) => k a w out'
    | (out', Raise e) => (out', Raise e)
    end.

Notation "x <- m ;; k" := (bind m (fun x => k))
  (at level 61, m at next level, right associativity).
Notation "m ;;; k" := (bind m (fun _ => k))
  (at level 61, right associativity).

Definition raise {A} (e : exn) : M A := fun _ out => (out, Raise e).

(** [sys.argv[i]] *)
Definition sys_argv (i : nat) : M str :=
  fun w out =>
    match nth_error (argv w) i with
    | Some p => (out, Ok p)
    | None => (out, Raise IndexError)
    end.

(** [open(path, "r")]: the file object, or an [OSError]. *)
Definition open (path : str) : M file :=
  fun w out =>
    match fs w path with
    | Unopenable => (out, Raise OSError)
    | f => (out, Ok f)
    end.

(** [f.read()] *)
Definition read (f : file) : M str :=
  match f with
  | Text contents => ret (universal_newlines false contents)
  | Undecodable => raise UnicodeDecodeError
  | Unopenable => raise OSError
  end.

(** [print(line)]: the line and a line feed go to standard output. *)
Definition print (line : str) : M unit :=
  fun _ out => (out ++ line ++ [nl], Ok tt).

(** [for x in xs: body] *)
Fixpoint for_each {A} (xs : list A) (body : A -> M unit) : M unit :=
  match xs with
  | [] => ret tt
  | x :: xs' => body x ;;; for_each xs' body
  end.

(** ** The script *)

(** The f-string [f'\t"{word}".to_string(),']. *)
Definition format_word (word : str) : str :=
  [tab; dq] ++ word ++ dq :: lit ".to_string(),".

(** [with open(path, "r") as f: words = f.read().split()] *)
Definition read_words (path : str) : M (list str) :=
  f <- open path ;;
  contents <- read f ;;
  ret (split contents).

(** The two lists are bound to [[]] first and rebound before any use; the
    [with] blocks close each file after it is read, which nothing here
    observes. *)
Definition main : M unit :=
  path1 <- sys_argv 1 ;;
  primary_word_list <- read_words path1 ;;
  path2 <- sys_argv 2 ;;
  secondary_word_list <- read_words path2 ;;
  print (lit "primary_keywords: vec![") ;;;
  for_each primary_word_list (fun word => print (format_word word)) ;;;
  print (lit "],") ;;;
  print (lit "secondary_keywords: vec![") ;;;
  for_each secondary_word_list (fun word => print (format_word word)) ;;;
  print (lit "],") ;;;
  print (lit "You can now add the keywords to the src/filetype.rs folder.").

(** A run of the process starts with nothing on standard output. *)
Definition run (w : world) : str * outcome unit := main w [].

Definition stdout (w : world) : str := fst (run w).

Definition exit_code (w : world) : N :=
  match snd (run w) with
  | Ok _ => 0
  | Raise _ => 1
  end.

(** ** Reading standard output back *)

(** The lines of an output: every line feed ends a line; characters after
    the last line feed form an unterminated last line. *)
Fixpoint lines_from (cur : str) (s : str) : list str :=
  match s with
  | [] => flush cur
  | c :: s' =>
      if c =? nl then cur :: lines_from [] s'
      else lines_from (cur ++ [c]) s'
  end.

Definition lines (s : str) : list str := lines_from [] s.

(** What printing the lines [ls] one after the other writes. *)
Definition unlines (ls : list str) : str :=
  concat (map (fun l => l ++ [nl]) ls).

Fixpoint str_eqb (s t : str) : bool :=
  match s, t with
  | [], [] => true
  | c :: s', d :: t' => (c =? d) && str_eqb s' t'
  | _, _ => false
  end.

Fixpoint drop_through (marker : str) (ls : list str) : list str :=
  match ls with
  | [] => []
  | l :: ls' => if str_eqb l marker then ls' else drop_through marker ls'
  end.

Fixpoint take_until (marker : str) (ls : list str) : list str :=
  match ls with
  | [] => []
  | l :: ls' => if str_eqb l marker then [] else l :: take_until marker ls'
  end.

(** The lines strictly between the first line equal to [opening] and the
    next closing line [],]. *)
Definition block (opening : str) (ls : list str) : list str :=
  take_until (lit "],") (drop_through opening ls).

(** The text between the wrapper of a per-word line: without its first two
    characters and its last fourteen. *)
Definition token_of_line (line : str) : str :=
  let body := skipn 2 line in
  firstn (length body - 14) body.

(** The lines of a complete report for two word lists. *)
Definition report (W1 W2 : list str) : list str :=
  lit "primary_keywords: vec![" :: map format_word W1
  ++ lit "],"
  :: lit "secondary_keywords: vec![" :: map format_word W2
  ++ [lit "],";
      lit "You can now add the keywords to the src/filetype.rs folder."].

(** A summary of a run, read off the environment and shown below
    ([run_run_summary]) to agree with [run]: what argument [i] loads, and
    what the whole run gives. *)
Definition load (w : world) (i : nat) : outcome (list str) :=
  match nth_error (argv w) i with
  | None => Raise IndexError
  | Some p =>
      match fs w p with
      | Unopenable => Raise OSError
      | Undecodable => Raise UnicodeDecodeError
      | Text c => Ok (split c)
      end
  end.

Definition run_summary (w : world) : str * outcome unit :=
  match load w 1 with
  | Raise e => ([], Raise e)
  | Ok W1 =>
      match load w 2 with
      | Raise e => ([], Raise e)
      | Ok W2 => (unlines (report W1 W2), Ok tt)
      end
  end.

(** A token: not empty, no whitespace in it. *)
Definition is_token (t : str) : bool :=
  negb (str_eqb t []) && forallb (fun c => negb (isspace c)) t.

(** Whitespace only (the empty text included). *)
Definition is_blank (s : str) : bool := forallb isspace s.

(** A token with a non-empty run of whitespace in front of it. *)
Definition separated (p : str * str) : bool :=
  is_blank (fst p) && negb (str_eqb (fst p) []) && is_token (snd p).

(** Well-separated pieces: each token comes with the whitespace in front of
    it, and only the first token may have none. *)
Definition well_separated (pieces : list (str * str)) : bool :=
  match pieces with
  | [] => true
  | p :: ps => is_blank (fst p) && is_token (snd p) && forallb separated ps
  end.

Definition assemble (pieces : list (str * str)) (trail : str) : str :=
  flat_map (fun p => fst p ++ snd p) pieces ++ trail.

(** ** Example environments *)

(** A file system given by a table of paths; any other path cannot be
    opened. *)
Definition files (table : list (str * file)) : str -> file :=
  fun p =>
    match find (fun e => str_eqb (fst e) p) table with
    | Some e => snd e
    | None => Unopenable
    end.

Definition invoke (args : list string) (table : list (string * file)) : world :=
  World (lit "keyword_formatter.py" :: map lit args)
        (files (map (fun e => (lit (fst e), snd e)) table)).

(** The primary file is there, the secondary path leads nowhere. *)
Definition secondary_missing : world :=
  invoke ["primary.txt"; "missing.txt"]
    [("primary.txt", Text (lit "alpha beta"))].

(** One path argument only, and it leads nowhere. *)
Definition one_missing_path : world := invoke ["missing.txt"] [].

(** [a   b<TAB>c<LF>d] *)
Definition text_abcd : str :=
  lit "a   b" ++ tab :: lit "c" ++ nl :: lit "d".

(** A token with a double quote in the middle and a backslash at the end:
    [say], a double quote, [hi], a backslash. *)
Definition quoted_token : str := lit "say" ++ dq :: lit "hi" ++ [backslash].

(** A per-word line starts with the tab of the f-string. *)
Definition starts_with_tab (line : str) : bool :=
  match line with
  | c :: _ => c =? tab
  | [] => false
  end.

(** Both files are there. *)
Definition both_present : world :=
  invoke ["primary.txt"; "secondary.txt"]
    [("primary.txt", Text (lit "alpha beta"));
     ("secondary.txt", Text (lit "gamma"))].

(** The same words as in [both_present], under other paths, laid out with
    other whitespace (line ends written as carriage return and line feed),
    and with a further argument. *)
Definition both_present_reformatted : world :=
  invoke ["a"; "b"; "--verbose"]
    [("a", Text ([32; 32] ++ lit "alpha" ++ [cr; nl] ++ lit "beta" ++ [cr; nl]));
     ("b", Text (tab :: lit "gamma"))].

(** The primary path cannot be opened and the secondary argument is not
    even given. *)
Definition primary_missing_alone : world := invoke ["missing.txt"] [].

(** The primary file does not decode and the secondary path leads
    nowhere. *)
Definition primary_undecodable : world :=
  invoke ["binary.dat"; "missing.txt"] [("binary.dat", Undecodable)].

(** The primary file is fine, the secondary one does not decode. *)
Definition secondary_undecodable : world :=
  invoke ["primary.txt"; "binary.dat"]
    [("primary.txt", Text (lit "alpha beta")); ("binary.dat", Undecodable)].

(** Two word files and the file made of the first, a line end and the
    second. *)
Definition first_part : world :=
  invoke ["one.txt"; "other.txt"]
    [("one.txt", Text (lit "if else")); ("other.txt", Text (lit "u8"))].

Definition second_part : world :=
  invoke ["two.txt"; "other.txt"]
    [("two.txt", Text (lit "while")); ("other.txt", Text (lit "u8"))].

Definition both_parts : world :=
  invoke ["all.txt"; "types.txt"]
    [("all.txt", Text (lit "if else" ++ [nl] ++ lit "while"));
     ("types.txt", Text (lit "u8 i8"))].

(** The primary file holds [a   b<TAB>c<LF>d]; the secondary one has
    whitespace in front of, between and behind its two words. *)
Definition abcd_and_tabs : world :=
  invoke ["primary.txt"; "secondary.txt"]
    [("primary.txt", Text text_abcd);
     ("secondary.txt",
      Text ([tab; tab] ++ lit "u8" ++ [32; nl] ++ lit "i8" ++ [nl; tab]))].

(** * Properties *)

(** ** Tokenization *)

Lemma split_from_blank tok sp s :
  is_blank sp = true -> sp <> [] ->
  split_from tok (sp ++ s) = flush tok ++ split_from [] s.
Proof.
  intros Hb Hne. destruct sp as [|c sp]; [congruence|]. clear Hne.
  simpl in *. apply andb_prop in Hb as [Hc Hsp]. rewrite Hc. f_equal.
  clear c Hc. induction sp as [|c sp IH]; simpl in *; [reflexivity|].
  apply andb_prop in Hsp as [Hc Hsp]. rewrite Hc. simpl. auto.
Qed.

Lemma split_from_blank_start sp s :
  is_blank sp = true -> split_from [] (sp ++ s) = split_from [] s.
Proof.
  intros Hb. destruct sp as [|c sp]; [reflexivity|].
  rewrite split_from_blank; auto; discriminate.
Qed.

Lemma split_from_word tok t s :
  forallb (fun c => negb (isspace c)) t = true ->
  split_from tok (t ++ s) = split_from (tok ++ t) s.
Proof.
  revert tok. induction t as [|c t IH]; simpl; intros tok Ht.
  - now rewrite app_nil_r.
  - apply andb_prop in Ht as [Hc Ht]. apply negb_true_iff in Hc.
    rewrite Hc, IH by assumption. now rewrite <- app_assoc.
Qed.

Lemma split_from_trail tok trail :
  is_blank trail = true -> split_from tok trail = flush tok.
Proof.
  intros Hb. destruct trail as [|c sp]; [reflexivity|].
  rewrite <- (app_nil_r (c :: sp)), split_from_blank by (auto; discriminate).
  simpl. apply app_nil_r.
Qed.

Lemma is_token_flush t : is_token t = true -> flush t = [t].
Proof. destruct t; [discriminate | reflexivity]. Qed.

Lemma str_eqb_nil_false (s : str) : negb (str_eqb s []) = true -> s <> [].
Proof. destruct s; simpl; [discriminate | discriminate]. Qed.

Lemma split_from_separated tok ps trail :
  forallb separated ps = true -> is_blank trail = true ->
  split_from tok (assemble ps trail) = flush tok ++ map snd ps.
Proof.
  unfold assemble. revert tok.
  induction ps as [|[sp t] ps IH]; simpl; intros tok Hps Htr.
  - rewrite split_from_trail by assumption. now rewrite app_nil_r.
  - apply andb_prop in Hps as [Hp Hps]. unfold separated in Hp. simpl in Hp.
    apply andb_prop in Hp as [Hp Ht]. apply andb_prop in Hp as [Hsp Hne].
    apply str_eqb_nil_false in Hne.
    rewrite <- !app_assoc, split_from_blank by assumption. f_equal.
    pose proof Ht as Ht'. unfold is_token in Ht'.
    apply andb_prop in Ht' as [_ Hw].
    rewrite split_from_word by assumption. simpl.
    rewrite IH by assumption. now rewrite is_token_flush.
Qed.

Lemma flush_is_token tok :
  forallb (fun c => negb (isspace c)) tok = true ->
  Forall (fun t => is_token t = true) (flush tok).
Proof.
  destruct tok as [|c tok]; intros H; constructor; [|constructor].
  unfold is_token. now rewrite H.
Qed.

Lemma split_from_tokens s : forall tok,
  forallb (fun c => negb (isspace c)) tok = true ->
  Forall (fun t => is_token t = true) (split_from tok s).
Proof.
  induction s as [|c s IH]; simpl; intros tok Htok.
  - now apply flush_is_token.
  - destruct (isspace c) eqn:Hc.
    + apply Forall_app. split; [now apply flush_is_token | now apply IH].
    + apply IH. rewrite forallb_app, Htok. simpl. now rewrite Hc.
Qed.

Lemma split_tokens s : Forall (fun t => is_token t = true) (split s).
Proof. now apply split_from_tokens. Qed.

(** Newline translation on input never changes the word list: both
    characters it touches are whitespace. *)
Lemma split_from_universal_newlines s : forall after_cr tok,
  (after_cr = true -> tok = []) ->
  split_from tok (universal_newlines after_cr s) = split_from tok s.
Proof.
  induction s as [|c s IH]; simpl; intros b tok Hb; [reflexivity|].
  destruct (c =? cr) eqn:Hcr.
  - apply N.eqb_eq in Hcr. subst c. simpl. f_equal. now apply IH.
  - destruct (c =? nl) eqn:Hnl; simpl.
    + apply N.eqb_eq in Hnl. subst c. destruct b; simpl.
      * rewrite (Hb eq_refl). simpl. apply IH. reflexivity.
      * f_equal. apply IH. discriminate.
    + destruct (isspace c); [f_equal|]; apply IH; discriminate.
Qed.

Lemma split_universal_newlines s :
  split (universal_newlines false s) = split s.
Proof. apply split_from_universal_newlines. discriminate. Qed.

(** ** Lines of the output *)

Definition one_line (l : str) : bool := forallb (fun c => negb (c =? nl)) l.

Lemma lines_from_line l : forall cur s,
  one_line l = true ->
  lines_from cur (l ++ nl :: s) = (cur ++ l) :: lines_from [] s.
Proof.
  induction l as [|c l IH]; simpl; intros cur s Hl.
  - now rewrite app_nil_r.
  - apply andb_prop in Hl as [Hc Hl]. apply negb_true_iff in Hc.
    rewrite Hc, IH by assumption. now rewrite <- app_assoc.
Qed.

Lemma lines_unlines ls :
  Forall (fun l => one_line l = true) ls -> lines (unlines ls) = ls.
Proof.
  unfold lines, unlines. induction 1 as [|l ls Hl _ IH]; simpl.
  - reflexivity.
  - rewrite <- app_assoc. simpl. rewrite lines_from_line by assumption.
    simpl. now rewrite IH.
Qed.

Lemma isspace_nl c : isspace c = false -> (c =? nl) = false.
Proof.
  intros H. destruct (c =? nl) eqn:E; [|reflexivity].
  apply N.eqb_eq in E. subst c. discriminate.
Qed.

Lemma token_one_line t : is_token t = true -> one_line t = true.
Proof.
  unfold is_token, one_line. intros H. apply andb_prop in H as [_ H].
  induction t as [|c t IH]; simpl in *; [reflexivity|].
  apply andb_prop in H as [Hc H]. apply negb_true_iff in Hc.
  now rewrite (isspace_nl _ Hc), IH.
Qed.

Lemma format_word_one_line t :
  is_token t = true -> one_line (format_word t) = true.
Proof.
  intros H. apply token_one_line in H. unfold one_line, format_word in *.
  rewrite !forallb_app. apply andb_true_intro. split; [reflexivity|].
  apply andb_true_intro. split; [exact H | reflexivity].
Qed.

Lemma report_one_line W1 W2 :
  Forall (fun t => is_token t = true) W1 ->
  Forall (fun t => is_token t = true) W2 ->
  Forall (fun l => one_line l = true) (report W1 W2).
Proof.
  intros H1 H2. unfold report.
  assert (Hmap : forall W, Forall (fun t => is_token t = true) W ->
            Forall (fun l => one_line l = true) (map format_word W)).
  { intros W HW. apply Forall_map.
    eapply Forall_impl; [|exact HW]. apply format_word_one_line. }
  constructor; [reflexivity|]. apply Forall_app. split; [now apply Hmap|].
  constructor; [reflexivity|]. constructor; [reflexivity|].
  apply Forall_app. split; [now apply Hmap|].
  repeat constructor.
Qed.

(** ** The run *)

Lemma for_each_print (f : str -> str) ws : forall w out,
  for_each ws (fun word => print (f word)) w out
  = (out ++ unlines (map f ws), Ok tt).
Proof.
  induction ws as [|x ws IH]; simpl; intros w out.
  - unfold ret. now rewrite app_nil_r.
  - unfold bind at 1. unfold print at 1. rewrite IH.
    unfold unlines. simpl. now rewrite <- !app_assoc.
Qed.

Lemma read_words_load w i out :
  (p <- sys_argv i ;; read_words p) w out
  = match load w i with
    | Ok W => (out, Ok W)
    | Raise e => (out, Raise e)
    end.
Proof.
  unfold bind, sys_argv, read_words, load, bind, open.
  destruct (nth_error (argv w) i) as [p|]; [|reflexivity].
  destruct (fs w p); simpl; try reflexivity.
  unfold ret. now rewrite split_universal_newlines.
Qed.

Lemma bind_assoc A B C (m : M A) (k : A -> M B) (h : B -> M C) w out :
  bind (bind m k) h w out = bind m (fun a => bind (k a) h) w out.
Proof. unfold bind. destruct (m w out) as [out' [a|e]]; reflexivity. Qed.

Lemma bind_load w i out B (k : list str -> M B) :
  (p <- sys_argv i ;; W <- read_words p ;; k W) w out
  = match load w i with
    | Ok W => k W w out
    | Raise e => (out, Raise e)
    end.
Proof.
  rewrite <- bind_assoc. unfold bind at 1. rewrite read_words_load.
  destruct (load w i); reflexivity.
Qed.

Lemma print_report W1 W2 w out :
  (print (lit "primary_keywords: vec![") ;;;
   for_each W1 (fun word => print (format_word word)) ;;;
   print (lit "],") ;;;
   print (lit "secondary_keywords: vec![") ;;;
   for_each W2 (fun word => print (format_word word)) ;;;
   print (lit "],") ;;;
   print (lit "You can now add the keywords to the src/filetype.rs folder."))
    w out
  = (out ++ unlines (report W1 W2), Ok tt).
Proof.
  unfold bind. unfold print at 1. rewrite for_each_print.
  unfold print at 1 2. rewrite for_each_print. unfold print.
  f_equal. unfold report, unlines.
  repeat (rewrite ?map_app, ?concat_app, <- ?app_assoc; cbn [map concat app]).
  reflexivity.
Qed.

(** The script does what [run_summary] says: it fails on the first argument
    or file that cannot be read, before printing, and otherwise prints the
    report of the two word lists. *)
Lemma run_run_summary w : run w = run_summary w.
Proof.
  unfold run, run_summary, main. rewrite bind_load.
  destruct (load w 1) as [W1|e]; [|reflexivity].
  rewrite bind_load. destruct (load w 2) as [W2|e]; [|reflexivity].
  now rewrite print_report.
Qed.

Section TwoReadableFiles.

Variables (w : world) (prog path1 path2 : str) (extra : list str).
Variables c1 c2 : str.
Hypothesis Hargv : argv w = prog :: path1 :: path2 :: extra.
Hypothesis Hprimary : fs w path1 = Text c1.
Hypothesis Hsecondary : fs w path2 = Text c2.

Lemma load_primary : load w 1 = Ok (split c1).
Proof. unfold load. rewrite Hargv. simpl. now rewrite Hprimary. Qed.

Lemma load_secondary : load w 2 = Ok (split c2).
Proof. unfold load. rewrite Hargv. simpl. now rewrite Hsecondary. Qed.

Lemma run_two_files :
  run w = (unlines (report (split c1) (split c2)), Ok tt).
Proof.
  rewrite run_run_summary. unfold run_summary.
  now rewrite load_primary, load_secondary.
Qed.

Lemma lines_two_files :
  lines (stdout w) = report (split c1) (split c2).
Proof.
  unfold stdout. rewrite run_two_files. simpl.
  apply lines_unlines, report_one_line; apply split_tokens.
Qed.

End TwoReadableFiles.

(** ** Blocks of the report *)

Lemma format_word_not_marker t marker :
  match marker with c :: _ => (c =? tab) = false | [] => True end ->
  str_eqb (format_word t) marker = false.
Proof.
  destruct marker as [|c m]; [reflexivity|]. intros Hc.
  unfold format_word. cbn [app str_eqb]. rewrite N.eqb_sym, Hc. reflexivity.
Qed.

Lemma take_until_words marker W rest :
  match marker with c :: _ => (c =? tab) = false | [] => True end ->
  take_until marker (map format_word W ++ marker :: rest) = map format_word W.
Proof.
  intros Hm. induction W as [|t W IH]; cbn [map app take_until].
  - assert (E : str_eqb marker marker = true).
    { clear. induction marker as [|c m IH]; simpl; [reflexivity|].
      now rewrite N.eqb_refl. }
    now rewrite E.
  - rewrite format_word_not_marker by assumption. now rewrite IH.
Qed.

Lemma drop_through_words marker W rest :
  match marker with c :: _ => (c =? tab) = false | [] => True end ->
  drop_through marker (map format_word W ++ rest) = drop_through marker rest.
Proof.
  intros Hm. induction W as [|t W IH]; cbn [map app drop_through];
    [reflexivity|].
  now rewrite format_word_not_marker.
Qed.

Lemma block_primary W1 W2 :
  block (lit "primary_keywords: vec![") (report W1 W2) = map format_word W1.
Proof.
  unfold block, report. cbn [drop_through]. 
  change (str_eqb (lit "primary_keywords: vec![")
            (lit "primary_keywords: vec![")) with true. cbv iota.
  now apply take_until_words.
Qed.

Lemma block_secondary W1 W2 :
  block (lit "secondary_keywords: vec![") (report W1 W2) = map format_word W2.
Proof.
  unfold block, report. cbn [drop_through].
  change (str_eqb (lit "primary_keywords: vec![")
            (lit "secondary_keywords: vec![")) with false. cbv iota.
  rewrite drop_through_words by reflexivity. cbn [drop_through].
  change (str_eqb (lit "],") (lit "secondary_keywords: vec![")) with false.
  change (str_eqb (lit "secondary_keywords: vec![")
            (lit "secondary_keywords: vec![")) with true. cbv iota.
  now apply take_until_words.
Qed.

Lemma token_of_line_format_word t : token_of_line (format_word t) = t.
Proof.
  unfold token_of_line, format_word. cbn [app skipn].
  rewrite length_app. cbn [length lit].
  replace (length t + 14 - 14)%nat with (length t + 0)%nat by lia.
  rewrite firstn_app_2. cbn [firstn]. apply app_nil_r.
Qed.

Lemma map_token_of_line W : map token_of_line (map format_word W) = W.
Proof.
  rewrite map_map. rewrite <- (map_id W) at 2.
  apply map_ext. apply token_of_line_format_word.
Qed.

(** * The claims *)

Lemma split_well_separated pieces trail :
  well_separated pieces = true -> is_blank trail = true ->
  split (assemble pieces trail) = map snd pieces.
Proof.
  destruct pieces as [|[sp t] ps]; intros Hps Htr.
  - unfold split. now rewrite split_from_separated.
  - simpl in Hps. apply andb_prop in Hps as [Hp Hps].
    apply andb_prop in Hp as [Hsp Ht].
    unfold split, assemble. cbn [flat_map fst snd map].
    rewrite <- !app_assoc, split_from_blank_start by assumption.
    pose proof Ht as Ht'. unfold is_token in Ht'.
    apply andb_prop in Ht' as [_ Hw].
    rewrite split_from_word by assumption. cbn [app].
    fold (assemble ps trail). rewrite split_from_separated by assumption.
    now rewrite is_token_flush.
Qed.

(** What [read_words] gives for a file that opens and decodes: the split of
    its full contents, and nothing written. *)
Lemma read_words_text w path c out :
  fs w path = Text c -> read_words path w out = (out, Ok (split c)).
Proof.
  intros H. unfold read_words, bind, open. rewrite H. cbn [read].
  unfold ret. now rewrite split_universal_newlines.
Qed.

(** C4. The script tokenizes the full contents of each file on runs of
    whitespace and drops the empty tokens at the boundaries.  Whenever the
    text of a file is made of tokens (non-empty, without whitespace)
    separated by non-empty runs of whitespace, with any whitespace in front
    and behind, the word list read from that file is exactly the tokens, in
    order; every member of a word list read from a file is such a token; in
    a run, the words of the primary block and of the secondary block are the
    tokens of the primary and of the secondary file; and a file holding
    [a   b<TAB>c<LF>d] yields the word list [a, b, c, d]. *)
Theorem file_contents_split_on_whitespace_runs :
  (forall w path out pieces trail,
      fs w path = Text (assemble pieces trail) ->
      well_separated pieces = true -> is_blank trail = true ->
      read_words path w out = (out, Ok (map snd pieces)))
  /\ (forall w path out c,
        fs w path = Text c ->
        exists W, read_words path w out = (out, Ok W)
                  /\ Forall (fun t => is_token t = true) W)
  /\ (forall w prog path1 path2 extra pieces1 trail1 pieces2 trail2,
        argv w = prog :: path1 :: path2 :: extra ->
        fs w path1 = Text (assemble pieces1 trail1) ->
        fs w path2 = Text (assemble pieces2 trail2) ->
        well_separated pieces1 = true -> is_blank trail1 = true ->
        well_separated pieces2 = true -> is_blank trail2 = true ->
        map token_of_line
          (block (lit "primary_keywords: vec![") (lines (stdout w)))
        = map snd pieces1
        /\ map token_of_line
             (block (lit "secondary_keywords: vec![") (lines (stdout w)))
           = map snd pieces2)
  /\ (forall w path out,
        fs w path = Text text_abcd ->
        read_words path w out
        = (out, Ok [lit "a"; lit "b"; lit "c"; lit "d"])).
Proof.
  split; [|split; [|split]].
  - intros w path out pieces trail Hf Hps Htr.
    rewrite (@read_words_text w path _ out Hf). now rewrite split_well_separated.
  - intros w path out c Hf. exists (split c).
    split; [now apply read_words_text | apply split_tokens].
  - intros w prog path1 path2 extra pieces1 trail1 pieces2 trail2
      Hargv H1 H2 Hp1 Ht1 Hp2 Ht2.
    rewrite (lines_two_files _ Hargv H1 H2).
    rewrite block_primary, block_secondary, !map_token_of_line.
    now rewrite !split_well_separated.
  - intros w path out Hf. now rewrite (@read_words_text w path _ out Hf).
Qed.

Lemma file_contents_split_on_whitespace_runs_witness :
  read_words (lit "primary.txt") abcd_and_tabs []
  = ([], Ok [lit "a"; lit "b"; lit "c"; lit "d"])
  /\ map token_of_line
       (block (lit "primary_keywords: vec![") (lines (stdout abcd_and_tabs)))
     = [lit "a"; lit "b"; lit "c"; lit "d"]
  /\ map token_of_line
       (block (lit "secondary_keywords: vec![")
          (lines (stdout abcd_and_tabs)))
     = [lit "u8"; lit "i8"].
Proof.
  split.
  - exact (proj1 file_contents_split_on_whitespace_runs
             abcd_and_tabs (lit "primary.txt") []
             [([], lit "a"); (lit "   ", lit "b"); ([tab], lit "c");
              ([nl], lit "d")] [] eq_refl eq_refl eq_refl).
  - exact (proj1 (proj2 (proj2 file_contents_split_on_whitespace_runs))
             abcd_and_tabs (lit "keyword_formatter.py") (lit "primary.txt")
             (lit "secondary.txt") []
             [([], lit "a"); (lit "   ", lit "b"); ([tab], lit "c");
              ([nl], lit "d")] []
             [([tab; tab], lit "u8"); ([32; nl], lit "i8")] [nl; tab]
             eq_refl eq_refl eq_refl eq_refl eq_refl eq_refl eq_refl).
Defined.

(** C2. With primary contents [alpha beta] and secondary contents [gamma]
    the run succeeds and standard output consists of exactly the eight
    expected lines, each ended by a line feed, and nothing else. *)
Theorem scenario_alpha_beta_gamma w prog path1 path2 extra :
  argv w = prog :: path1 :: path2 :: extra ->
  fs w path1 = Text (lit "alpha beta") ->
  fs w path2 = Text (lit "gamma") ->
  run w =
    (lit "primary_keywords: vec![" ++ [nl]
     ++ [tab; dq] ++ lit "alpha" ++ [dq] ++ lit ".to_string()," ++ [nl]
     ++ [tab; dq] ++ lit "beta" ++ [dq] ++ lit ".to_string()," ++ [nl]
     ++ lit "]," ++ [nl]
     ++ lit "secondary_keywords: vec![" ++ [nl]
     ++ [tab; dq] ++ lit "gamma" ++ [dq] ++ lit ".to_string()," ++ [nl]
     ++ lit "]," ++ [nl]
     ++ lit "You can now add the keywords to the src/filetype.rs folder."
     ++ [nl],
     Ok tt)
  /\ lines (stdout w) =
       [lit "primary_keywords: vec![";
        [tab; dq] ++ lit "alpha" ++ [dq] ++ lit ".to_string(),";
        [tab; dq] ++ lit "beta" ++ [dq] ++ lit ".to_string(),";
        lit "],";
        lit "secondary_keywords: vec![";
        [tab; dq] ++ lit "gamma" ++ [dq] ++ lit ".to_string(),";
        lit "],";
        lit "You can now add the keywords to the src/filetype.rs folder."].
Proof.
  intros Hargv H1 H2. split.
  - rewrite (run_two_files _ Hargv H1 H2). reflexivity.
  - rewrite (lines_two_files _ Hargv H1 H2). reflexivity.
Qed.

Lemma scenario_alpha_beta_gamma_witness :
  lines (stdout (invoke ["primary.txt"; "secondary.txt"]
                   [("primary.txt", Text (lit "alpha beta"));
                    ("secondary.txt", Text (lit "gamma"))]))
  = [lit "primary_keywords: vec![";
     [tab; dq] ++ lit "alpha" ++ [dq] ++ lit ".to_string(),";
     [tab; dq] ++ lit "beta" ++ [dq] ++ lit ".to_string(),";
     lit "],";
     lit "secondary_keywords: vec![";
     [tab; dq] ++ lit "gamma" ++ [dq] ++ lit ".to_string(),";
     lit "],";
     lit "You can now add the keywords to the src/filetype.rs folder."].
Proof.
  exact (proj2 (@scenario_alpha_beta_gamma
                  (invoke ["primary.txt"; "secondary.txt"]
                     [("primary.txt", Text (lit "alpha beta"));
                      ("secondary.txt", Text (lit "gamma"))])
                  (lit "keyword_formatter.py") (lit "primary.txt")
                  (lit "secondary.txt") [] eq_refl eq_refl eq_refl)).
Defined.

(** ** Where the per-word lines are *)

Lemma nth_error_report_primary W1 W2 i t :
  nth_error W1 i = Some t ->
  nth_error (report W1 W2) (S i) = Some (format_word t).
Proof.
  intros Hi. unfold report. cbn [nth_error].
  rewrite nth_error_app1.
  - now apply map_nth_error.
  - rewrite length_map. apply nth_error_Some. congruence.
Qed.

Lemma nth_error_report_secondary W1 W2 i t :
  nth_error W2 i = Some t ->
  nth_error (report W1 W2) (3 + length W1 + i) = Some (format_word t).
Proof.
  intros Hi. unfold report.
  replace (3 + length W1 + i)%nat with (S (length W1 + S (S i))) by lia.
  cbn [nth_error]. rewrite nth_error_app2 by (rewrite length_map; lia).
  rewrite length_map.
  replace (length W1 + S (S i) - length W1)%nat with (S (S i)) by lia.
  cbn [nth_error]. rewrite nth_error_app1.
  - now apply map_nth_error.
  - rewrite length_map. apply nth_error_Some. congruence.
Qed.

Lemma count_dq_format_word t :
  count_occ N.eq_dec (format_word t) dq = (2 + count_occ N.eq_dec t dq)%nat.
Proof.
  unfold format_word. rewrite !count_occ_app.
  change (count_occ N.eq_dec [tab; dq] dq) with 1%nat.
  change (count_occ N.eq_dec (dq :: lit ".to_string(),") dq) with 1%nat.
  unfold str, char in *. lia.
Qed.

Lemma count_backslash_format_word t :
  count_occ N.eq_dec (format_word t) backslash
  = count_occ N.eq_dec t backslash.
Proof.
  unfold format_word. rewrite !count_occ_app.
  change (count_occ N.eq_dec [tab; dq] backslash) with 0%nat.
  change (count_occ N.eq_dec (dq :: lit ".to_string(),") backslash)
    with 0%nat.
  unfold str, char in *. lia.
Qed.

Lemma length_format_word t : length (format_word t) = (16 + length t)%nat.
Proof.
  unfold format_word. rewrite !length_app.
  change (length [tab; dq]) with 2%nat.
  change (length (dq :: lit ".to_string(),")) with 14%nat.
  unfold str, char in *. lia.
Qed.

Lemma is_blank_split s : is_blank s = true -> split s = [].
Proof. intros H. unfold split. now rewrite split_from_trail. Qed.

(** Every list of tokens is the word list of some text: the tokens with a
    space in front of each. *)
Lemma word_list_has_a_file W :
  Forall (fun t => is_token t = true) W ->
  split (assemble (map (fun t => ([32], t)) W) []) = W.
Proof.
  intros HW. unfold split. rewrite split_from_separated.
  - rewrite map_map. cbn [snd flush app]. apply map_id.
  - apply forallb_forall. intros p Hp. apply in_map_iff in Hp as [t [<- Ht]].
    unfold separated. cbn [fst snd]. rewrite Forall_forall in HW.
    now rewrite (HW t Ht).
  - reflexivity.
Qed.

Section Report.

Variables (w : world) (prog path1 path2 : str) (extra : list str).
Variables c1 c2 : str.
Hypothesis Hargv : argv w = prog :: path1 :: path2 :: extra.
Hypothesis Hprimary : fs w path1 = Text c1.
Hypothesis Hsecondary : fs w path2 = Text c2.

(** C3. In a run on two readable files, the line printed for the [i]-th
    token of the primary word list is line [1 + i] of standard output, the
    line for the [i]-th token of the secondary word list is line
    [3 + len(primary) + i], and each of them is exactly: a tab, a double
    quote, the token, a double quote, [.to_string(),]. *)
Theorem per_word_line_exact_form :
  (forall i token,
      nth_error (split c1) i = Some token ->
      nth_error (lines (stdout w)) (1 + i)
      = Some ([tab] ++ [dq] ++ token ++ [dq] ++ lit ".to_string(),"))
  /\ (forall i token,
      nth_error (split c2) i = Some token ->
      nth_error (lines (stdout w)) (3 + length (split c1) + i)
      = Some ([tab] ++ [dq] ++ token ++ [dq] ++ lit ".to_string(),")).
Proof.
  rewrite (lines_two_files _ Hargv Hprimary Hsecondary). split.
  - intros i token Hi. now apply nth_error_report_primary.
  - intros i token Hi. now apply nth_error_report_secondary.
Qed.


(** C6. A file that is empty or holds only whitespace gives a block with no
    per-word line, and the opening and closing lines of that block are
    still printed, next to each other. *)
Theorem blank_file_gives_empty_block :
  (is_blank c1 = true ->
   block (lit "primary_keywords: vec![") (lines (stdout w)) = []
   /\ lines (stdout w)
      = lit "primary_keywords: vec![" :: lit "],"
        :: lit "secondary_keywords: vec![" :: map format_word (split c2)
           ++ [lit "],";
               lit "You can now add the keywords to the src/filetype.rs folder."])
  /\ (is_blank c2 = true ->
      block (lit "secondary_keywords: vec![") (lines (stdout w)) = []
      /\ lines (stdout w)
         = lit "primary_keywords: vec![" :: map format_word (split c1)
           ++ [lit "],"; lit "secondary_keywords: vec!["; lit "],";
               lit "You can now add the keywords to the src/filetype.rs folder."]).
Proof.
  rewrite (lines_two_files _ Hargv Hprimary Hsecondary).
  rewrite block_primary, block_secondary.
  split; intros Hb; apply is_blank_split in Hb; rewrite Hb; split; reflexivity.
Qed.

(** C9. Nothing is escaped, on any token: the line printed for a token,
    whether or not it contains double quotes or backslashes, carries the
    token as it is between the two wrapping quotes.  The line is sixteen
    characters longer than the token, holds two more double quotes and as
    many backslashes as the token, and stripping the wrapper gives the
    token back. *)
Theorem quotes_not_escaped i token :
  nth_error (split c1) i = Some token \/ nth_error (split c2) i = Some token ->
  exists line,
    In line (lines (stdout w))
    /\ line = [tab; dq] ++ token ++ [dq] ++ lit ".to_string(),"
    /\ token_of_line line = token
    /\ length line = (16 + length token)%nat
    /\ count_occ N.eq_dec line dq = (2 + count_occ N.eq_dec token dq)%nat
    /\ count_occ N.eq_dec line backslash = count_occ N.eq_dec token backslash.
Proof.
  intros Hi. exists (format_word token). split.
  - rewrite (lines_two_files _ Hargv Hprimary Hsecondary).
    destruct Hi as [Hi|Hi].
    + eapply nth_error_In. apply nth_error_report_primary. exact Hi.
    + eapply nth_error_In. apply nth_error_report_secondary. exact Hi.
  - split; [reflexivity|].
    split; [apply token_of_line_format_word|].
    split; [apply length_format_word|].
    split; [apply count_dq_format_word | apply count_backslash_format_word].
Qed.

End Report.

Lemma per_word_line_exact_form_witness :
  nth_error
    (lines (stdout (invoke ["primary.txt"; "secondary.txt"]
                      [("primary.txt", Text (lit "alpha beta"));
                       ("secondary.txt", Text (lit "gamma"))])))
    (1 + 1)
  = Some ([tab] ++ [dq] ++ lit "beta" ++ [dq] ++ lit ".to_string(),").
Proof.
  apply (proj1 (@per_word_line_exact_form
                  (invoke ["primary.txt"; "secondary.txt"]
                     [("primary.txt", Text (lit "alpha beta"));
                      ("secondary.txt", Text (lit "gamma"))])
                  (lit "keyword_formatter.py") (lit "primary.txt")
                  (lit "secondary.txt") [] (lit "alpha beta") (lit "gamma")
                  eq_refl eq_refl eq_refl)).
  reflexivity.
Defined.


Lemma blank_file_gives_empty_block_witness :
  block (lit "primary_keywords: vec![")
    (lines (stdout (invoke ["primary.txt"; "secondary.txt"]
                      [("primary.txt", Text [32; tab; nl]);
                       ("secondary.txt", Text (lit "gamma"))]))) = []
  /\ lines (stdout (invoke ["primary.txt"; "secondary.txt"]
                      [("primary.txt", Text [32; tab; nl]);
                       ("secondary.txt", Text (lit "gamma"))]))
     = [lit "primary_keywords: vec!["; lit "],";
        lit "secondary_keywords: vec![";
        [tab; dq] ++ lit "gamma" ++ [dq] ++ lit ".to_string(),";
        lit "],";
        lit "You can now add the keywords to the src/filetype.rs folder."].
Proof.
  apply (proj1 (@blank_file_gives_empty_block
                  (invoke ["primary.txt"; "secondary.txt"]
                     [("primary.txt", Text [32; tab; nl]);
                      ("secondary.txt", Text (lit "gamma"))])
                  (lit "keyword_formatter.py") (lit "primary.txt")
                  (lit "secondary.txt") [] [32; tab; nl] (lit "gamma")
                  eq_refl eq_refl eq_refl)).
  reflexivity.
Defined.

Lemma quotes_not_escaped_witness :
  exists line,
    In line (lines (stdout (invoke ["primary.txt"; "secondary.txt"]
                              [("primary.txt", Text (quoted_token ++ lit " x"));
                               ("secondary.txt", Text [])])))
    /\ line = [tab; dq] ++ quoted_token ++ [dq] ++ lit ".to_string(),"
    /\ token_of_line line = quoted_token
    /\ length line = (16 + length quoted_token)%nat
    /\ count_occ N.eq_dec line dq
       = (2 + count_occ N.eq_dec quoted_token dq)%nat
    /\ count_occ N.eq_dec line backslash
       = count_occ N.eq_dec quoted_token backslash.
Proof.
  apply (@quotes_not_escaped
           (invoke ["primary.txt"; "secondary.txt"]
              [("primary.txt", Text (quoted_token ++ lit " x"));
               ("secondary.txt", Text [])])
           (lit "keyword_formatter.py") (lit "primary.txt")
           (lit "secondary.txt") [] (quoted_token ++ lit " x") []
           eq_refl eq_refl eq_refl 0%nat quoted_token).
  left. reflexivity.
Defined.

(** ** Failures *)

(** C1, as the code has it.  Both files are read before the first line is
    printed: when the primary file is read and the secondary path cannot be
    opened, the run ends with the error of the failed open, a non-zero exit
    code, and standard output is empty. *)
Theorem secondary_open_failure_prints_nothing w prog path1 path2 extra c1 :
  argv w = prog :: path1 :: path2 :: extra ->
  fs w path1 = Text c1 ->
  fs w path2 = Unopenable ->
  run w = ([], Raise OSError) /\ stdout w = [] /\ exit_code w = 1.
Proof.
  intros Hargv H1 H2.
  assert (E : run w = ([], Raise OSError)).
  { rewrite run_run_summary. unfold run_summary, load.
    rewrite Hargv. cbn [nth_error]. now rewrite H1, H2. }
  unfold stdout, exit_code. rewrite E. repeat split.
Qed.

Lemma secondary_open_failure_prints_nothing_witness :
  stdout (invoke ["primary.txt"; "missing.txt"]
            [("primary.txt", Text (lit "alpha beta"))]) = [].
Proof.
  apply (@secondary_open_failure_prints_nothing
           (invoke ["primary.txt"; "missing.txt"]
              [("primary.txt", Text (lit "alpha beta"))])
           (lit "keyword_formatter.py") (lit "primary.txt")
           (lit "missing.txt") [] (lit "alpha beta")
           eq_refl eq_refl eq_refl).
Defined.

(** C1, as stated, fails: with a readable primary file holding
    [alpha beta] and a secondary path that cannot be opened, the run ends
    with the error while standard output is still empty, so the primary
    block (not even its opening line) has not been written. *)
Lemma primary_block_not_written_before_failure :
  argv secondary_missing
  = [lit "keyword_formatter.py"; lit "primary.txt"; lit "missing.txt"]
  /\ fs secondary_missing (lit "primary.txt") = Text (lit "alpha beta")
  /\ fs secondary_missing (lit "missing.txt") = Unopenable
  /\ run secondary_missing = ([], Raise OSError)
  /\ ~ (exists rest,
          stdout secondary_missing
          = unlines (lit "primary_keywords: vec!["
                     :: map format_word (split (lit "alpha beta"))
                     ++ [lit "],"]) ++ rest)
  /\ ~ (exists rest,
          stdout secondary_missing
          = unlines [lit "primary_keywords: vec!["] ++ rest).
Proof.
  repeat split; try reflexivity.
  - intros [rest H]. discriminate H.
  - intros [rest H]. discriminate H.
Qed.

(** C7, as the code has it.  With a single path argument the run ends with
    a non-zero exit code and nothing on standard output.  The first file is
    opened and read before the second argument is looked up, so the error
    is the argument-access error exactly when that file could be read;
    otherwise it is the error of the first file. *)
Theorem one_argument_fails_silently w prog path1 :
  argv w = [prog; path1] ->
  stdout w = [] /\ exit_code w = 1
  /\ (snd (run w) = Raise IndexError <-> exists c1, fs w path1 = Text c1)
  /\ (fs w path1 = Unopenable -> snd (run w) = Raise OSError)
  /\ (fs w path1 = Undecodable -> snd (run w) = Raise UnicodeDecodeError).
Proof.
  intros Hargv.
  assert (E : run w = ([], Raise match fs w path1 with
                                   | Unopenable => OSError
                                   | Undecodable => UnicodeDecodeError
                                   | Text _ => IndexError
                                   end)).
  { rewrite run_run_summary. unfold run_summary, load.
    rewrite Hargv. cbn [nth_error]. now destruct (fs w path1). }
  unfold stdout, exit_code. rewrite E. cbn [fst snd].
  split; [reflexivity|]. split; [reflexivity|].
  destruct (fs w path1) as [| |c1]; repeat split;
    try discriminate; try reflexivity.
  - intros [c1 H]. discriminate H.
  - intros [c1 H]. discriminate H.
  - intros _. now exists c1.
Qed.

Lemma one_argument_fails_silently_witness :
  stdout (invoke ["primary.txt"] [("primary.txt", Text (lit "alpha beta"))])
  = []
  /\ exit_code
       (invoke ["primary.txt"] [("primary.txt", Text (lit "alpha beta"))])
     = 1.
Proof.
  pose proof (@one_argument_fails_silently
                (invoke ["primary.txt"]
                   [("primary.txt", Text (lit "alpha beta"))])
                (lit "keyword_formatter.py") (lit "primary.txt") eq_refl)
    as H.
  split; [exact (proj1 H) | exact (proj1 (proj2 H))].
Defined.

(** C7, as stated, fails: when the only path argument cannot be opened,
    the run ends with the error of that open, not with an argument-access
    error. *)
Lemma one_argument_error_is_not_always_argument_access :
  argv one_missing_path = [lit "keyword_formatter.py"; lit "missing.txt"]
  /\ run one_missing_path = ([], Raise OSError)
  /\ snd (run one_missing_path) <> Raise IndexError.
Proof.
  split; [reflexivity|]. split; [reflexivity|]. discriminate.
Qed.

(** ** What the output depends on *)

(** C8. Standard output is a function of the two file contents alone: two
    runs, whatever their program names, paths, further arguments and file
    systems, print the same characters when the primary files hold the same
    text and the secondary files hold the same text. *)
Theorem same_contents_same_output
    w w' prog prog' path1 path1' path2 path2' extra extra' c1 c2 :
  argv w = prog :: path1 :: path2 :: extra ->
  fs w path1 = Text c1 -> fs w path2 = Text c2 ->
  argv w' = prog' :: path1' :: path2' :: extra' ->
  fs w' path1' = Text c1 -> fs w' path2' = Text c2 ->
  stdout w = stdout w' /\ run w = run w'.
Proof.
  intros Ha H1 H2 Ha' H1' H2'.
  unfold stdout.
  rewrite (run_two_files _ Ha H1 H2), (run_two_files _ Ha' H1' H2').
  split; reflexivity.
Qed.

Lemma same_contents_same_output_witness :
  stdout (invoke ["primary.txt"; "secondary.txt"]
            [("primary.txt", Text (lit "alpha beta"));
             ("secondary.txt", Text (lit "gamma"))])
  = stdout (invoke ["a"; "b"; "--verbose"]
              [("b", Text (lit "gamma")); ("a", Text (lit "alpha beta"))]).
Proof.
  apply (@same_contents_same_output
           (invoke ["primary.txt"; "secondary.txt"]
              [("primary.txt", Text (lit "alpha beta"));
               ("secondary.txt", Text (lit "gamma"))])
           (invoke ["a"; "b"; "--verbose"]
              [("b", Text (lit "gamma")); ("a", Text (lit "alpha beta"))])
           (lit "keyword_formatter.py") (lit "keyword_formatter.py")
           (lit "primary.txt") (lit "a") (lit "secondary.txt") (lit "b")
           [] [lit "--verbose"] (lit "alpha beta") (lit "gamma")
           eq_refl eq_refl eq_refl eq_refl eq_refl eq_refl).
Defined.

(** C10. Arguments after the two paths are never looked at: with the
    program name, the two paths and the file system fixed, any two lists of
    further arguments give the same standard output and the same outcome,
    whether the run succeeds or fails. *)
Theorem further_arguments_ignored files_of prog path1 path2 extra extra' :
  stdout (World (prog :: path1 :: path2 :: extra) files_of)
  = stdout (World (prog :: path1 :: path2 :: extra') files_of)
  /\ run (World (prog :: path1 :: path2 :: extra) files_of)
     = run (World (prog :: path1 :: path2 :: extra') files_of).
Proof.
  unfold stdout. rewrite !run_run_summary. split; reflexivity.
Qed.

(** * Further properties of the script *)

(** ** Success and failure *)

(** X1. A failure on the input side leaves nothing behind: unless both
    positional arguments are given and both lead to text that opens and
    decodes, the run ends with a non-zero exit code and nothing on standard
    output, since every argument and file is read before the first line is
    printed. *)
Theorem input_failure_prints_nothing w :
  ~ (exists path1 path2 c1 c2,
        nth_error (argv w) 1 = Some path1 /\ fs w path1 = Text c1
        /\ nth_error (argv w) 2 = Some path2 /\ fs w path2 = Text c2) ->
  stdout w = [] /\ exit_code w = 1 /\ exists e, run w = ([], Raise e).
Proof.
  intros Hno.
  assert (E : exists e, run w = ([], Raise e)).
  { rewrite run_run_summary. unfold run_summary, load.
    destruct (nth_error (argv w) 1) as [p1|] eqn:Hp1; [|now eexists].
    destruct (fs w p1) as [| |c1] eqn:Hc1; try now eexists.
    destruct (nth_error (argv w) 2) as [p2|] eqn:Hp2; [|now eexists].
    destruct (fs w p2) as [| |c2] eqn:Hc2; try now eexists.
    exfalso. apply Hno. exists p1, p2, c1, c2. auto. }
  destruct E as [e E]. unfold stdout, exit_code. rewrite E.
  split; [reflexivity|]. split; [reflexivity|]. now exists e.
Qed.

Lemma input_failure_prints_nothing_witness :
  stdout secondary_undecodable = [] /\ exit_code secondary_undecodable = 1
  /\ exists e, run secondary_undecodable = ([], Raise e).
Proof.
  apply (@input_failure_prints_nothing secondary_undecodable).
  intros [path1 [path2 [c1 [c2 [_ [_ [Hp2 Hc2]]]]]]].
  injection Hp2 as <-. discriminate Hc2.
Defined.

(** X3. The primary file is dealt with first: when it cannot be opened, or
    does not decode, the run ends with that error and nothing printed,
    whatever the secondary argument is, even when it is missing or bad as
    well. *)
Theorem primary_failure_comes_first w path1 :
  nth_error (argv w) 1 = Some path1 ->
  (fs w path1 = Unopenable -> run w = ([], Raise OSError))
  /\ (fs w path1 = Undecodable -> run w = ([], Raise UnicodeDecodeError)).
Proof.
  intros Hp. rewrite run_run_summary. unfold run_summary, load. rewrite Hp.
  split; intros ->; reflexivity.
Qed.

Lemma primary_failure_comes_first_witness :
  run primary_missing_alone = ([], Raise OSError)
  /\ run primary_undecodable = ([], Raise UnicodeDecodeError).
Proof.
  split.
  - exact (proj1 (@primary_failure_comes_first primary_missing_alone
                    (lit "missing.txt") eq_refl) eq_refl).
  - exact (proj2 (@primary_failure_comes_first primary_undecodable
                    (lit "binary.dat") eq_refl) eq_refl).
Defined.

(** X4. When the primary file is read and the secondary file opens but does
    not decode, the run ends with the decoding error, a non-zero exit code
    and nothing printed. *)
Theorem secondary_decode_failure_prints_nothing w path1 path2 c1 :
  nth_error (argv w) 1 = Some path1 -> fs w path1 = Text c1 ->
  nth_error (argv w) 2 = Some path2 -> fs w path2 = Undecodable ->
  run w = ([], Raise UnicodeDecodeError) /\ exit_code w = 1.
Proof.
  intros Hp1 Hc1 Hp2 Hc2.
  assert (E : run w = ([], Raise UnicodeDecodeError)).
  { rewrite run_run_summary. unfold run_summary, load.
    now rewrite Hp1, Hc1, Hp2, Hc2. }
  unfold exit_code. rewrite E. now split.
Qed.

Lemma secondary_decode_failure_prints_nothing_witness :
  run secondary_undecodable = ([], Raise UnicodeDecodeError)
  /\ exit_code secondary_undecodable = 1.
Proof.
  exact (@secondary_decode_failure_prints_nothing secondary_undecodable
           (lit "primary.txt") (lit "binary.dat") (lit "alpha beta")
           eq_refl eq_refl eq_refl eq_refl).
Defined.

(** X5. Without any path argument the run ends with the argument-access
    error and nothing printed, whatever the file system holds. *)
Theorem no_path_argument_is_index_error w :
  (length (argv w) <= 1)%nat ->
  run w = ([], Raise IndexError) /\ exit_code w = 1.
Proof.
  intros Hlen.
  assert (E : run w = ([], Raise IndexError)).
  { rewrite run_run_summary. unfold run_summary, load.
    assert (H : nth_error (argv w) 1 = None) by now apply nth_error_None.
    now rewrite H. }
  unfold exit_code. rewrite E. now split.
Qed.

Lemma no_path_argument_is_index_error_witness :
  run (invoke [] [("primary.txt", Text (lit "alpha beta"))])
  = ([], Raise IndexError)
  /\ exit_code (invoke [] [("primary.txt", Text (lit "alpha beta"))]) = 1.
Proof.
  apply (@no_path_argument_is_index_error
           (invoke [] [("primary.txt", Text (lit "alpha beta"))])).
  simpl. lia.
Defined.

(** ** The shape of a successful output *)

Lemma length_report W1 W2 :
  length (report W1 W2) = (5 + length W1 + length W2)%nat.
Proof.
  unfold report. cbn [length]. rewrite length_app, length_map.
  cbn [length]. rewrite length_app, length_map. cbn [length]. lia.
Qed.

Lemma nth_error_report_markers W1 W2 :
  nth_error (report W1 W2) 0 = Some (lit "primary_keywords: vec![")
  /\ nth_error (report W1 W2) (1 + length W1) = Some (lit "],")
  /\ nth_error (report W1 W2) (2 + length W1)
     = Some (lit "secondary_keywords: vec![")
  /\ nth_error (report W1 W2) (3 + length W1 + length W2) = Some (lit "],")
  /\ nth_error (report W1 W2) (4 + length W1 + length W2)
     = Some (lit "You can now add the keywords to the src/filetype.rs folder.").
Proof.
  assert (Hskip : forall (W : list str) (k : nat) (rest : list str),
             nth_error (map format_word W ++ rest) (length W + k)
             = nth_error rest k).
  { intros W k rest. rewrite nth_error_app2 by (rewrite length_map; lia).
    rewrite length_map. f_equal. lia. }
  unfold report. split; [reflexivity|].
  split.
  { replace (1 + length W1)%nat with (S (length W1 + 0)) by lia.
    cbn [nth_error]. now rewrite Hskip. }
  split.
  { replace (2 + length W1)%nat with (S (length W1 + 1)) by lia.
    cbn [nth_error]. now rewrite Hskip. }
  split.
  { replace (3 + length W1 + length W2)%nat
      with (S (length W1 + S (S (length W2 + 0)))) by lia.
    cbn [nth_error]. rewrite Hskip. cbn [nth_error]. now rewrite Hskip. }
  replace (4 + length W1 + length W2)%nat
    with (S (length W1 + S (S (length W2 + 1)))) by lia.
  cbn [nth_error]. rewrite Hskip. cbn [nth_error]. now rewrite Hskip.
Qed.

Lemma filter_tab_words W rest :
  filter starts_with_tab (map format_word W ++ rest)
  = map format_word W ++ filter starts_with_tab rest.
Proof.
  induction W as [|t W IH]; cbn [map app filter]; [reflexivity|].
  change (starts_with_tab (format_word t)) with true. cbv iota.
  now rewrite IH.
Qed.

Lemma filter_tab_report W1 W2 :
  filter starts_with_tab (report W1 W2)
  = map format_word W1 ++ map format_word W2.
Proof.
  unfold report. cbn [filter].
  change (starts_with_tab (lit "primary_keywords: vec![")) with false.
  cbv iota. rewrite filter_tab_words. cbn [filter].
  change (starts_with_tab (lit "],")) with false.
  change (starts_with_tab (lit "secondary_keywords: vec![")) with false.
  cbv iota. rewrite filter_tab_words. cbn [filter].
  change (starts_with_tab (lit "],")) with false.
  change (starts_with_tab
            (lit "You can now add the keywords to the src/filetype.rs folder."))
    with false.
  cbv iota. now rewrite app_nil_r.
Qed.

(** No character of a file is lost or invented by the split: the tokens,
    put end to end, are the characters of the text that are not
    whitespace, in order. *)
Lemma concat_split_from s : forall tok,
  concat (split_from tok s)
  = tok ++ filter (fun c => negb (isspace c)) s.
Proof.
  assert (Hflush : forall tok : str, concat (flush tok) = tok).
  { intros [|c tok]; [reflexivity|]. cbn [flush concat]. apply app_nil_r. }
  induction s as [|c s IH]; intros tok; cbn [split_from filter].
  - rewrite Hflush. now rewrite app_nil_r.
  - destruct (isspace c); cbn [negb].
    + rewrite concat_app, Hflush, IH. reflexivity.
    + rewrite IH, <- app_assoc. reflexivity.
Qed.

Lemma split_from_app_blank s : forall tok sp t,
  is_blank sp = true -> sp <> [] ->
  split_from tok (s ++ sp ++ t) = split_from tok s ++ split_from [] t.
Proof.
  induction s as [|c s IH]; intros tok sp t Hsp Hne; cbn [app split_from].
  - now apply split_from_blank.
  - destruct (isspace c).
    + rewrite <- app_assoc. f_equal. now apply IH.
    + now apply IH.
Qed.

Lemma report_inj W1 W2 V1 V2 :
  report W1 W2 = report V1 V2 -> W1 = V1 /\ W2 = V2.
Proof.
  intros H. split.
  - rewrite <- (map_token_of_line W1), <- (map_token_of_line V1).
    rewrite <- (block_primary W1 W2), <- (block_primary V1 V2).
    now rewrite H.
  - rewrite <- (map_token_of_line W2), <- (map_token_of_line V2).
    rewrite <- (block_secondary W1 W2), <- (block_secondary V1 V2).
    now rewrite H.
Qed.

(** X6. The layout of a successful output: with [n1] primary and [n2]
    secondary words there are [5 + n1 + n2] lines; line 0 opens the primary
    block, line [1 + n1] closes it, line [2 + n1] opens the secondary
    block, line [3 + n1 + n2] closes it and line [4 + n1 + n2], the last
    one, is the closing message; and the run exits with code 0. *)
Theorem layout_of_successful_output w prog path1 path2 extra c1 c2 :
  argv w = prog :: path1 :: path2 :: extra ->
  fs w path1 = Text c1 -> fs w path2 = Text c2 ->
  exit_code w = 0
  /\ length (lines (stdout w))
     = (5 + length (split c1) + length (split c2))%nat
  /\ nth_error (lines (stdout w)) 0 = Some (lit "primary_keywords: vec![")
  /\ nth_error (lines (stdout w)) (1 + length (split c1)) = Some (lit "],")
  /\ nth_error (lines (stdout w)) (2 + length (split c1))
     = Some (lit "secondary_keywords: vec![")
  /\ nth_error (lines (stdout w)) (3 + length (split c1) + length (split c2))
     = Some (lit "],")
  /\ nth_error (lines (stdout w)) (4 + length (split c1) + length (split c2))
     = Some (lit "You can now add the keywords to the src/filetype.rs folder.").
Proof.
  intros Hargv H1 H2. split.
  - unfold exit_code. now rewrite (run_two_files _ Hargv H1 H2).
  - rewrite (lines_two_files _ Hargv H1 H2). split.
    + apply length_report.
    + apply nth_error_report_markers.
Qed.

Lemma layout_of_successful_output_witness :
  exit_code both_present = 0
  /\ length (lines (stdout both_present)) = 8%nat
  /\ nth_error (lines (stdout both_present)) 0
     = Some (lit "primary_keywords: vec![")
  /\ nth_error (lines (stdout both_present)) 3 = Some (lit "],")
  /\ nth_error (lines (stdout both_present)) 4
     = Some (lit "secondary_keywords: vec![")
  /\ nth_error (lines (stdout both_present)) 6 = Some (lit "],")
  /\ nth_error (lines (stdout both_present)) 7
     = Some (lit "You can now add the keywords to the src/filetype.rs folder.").
Proof.
  exact (@layout_of_successful_output both_present
           (lit "keyword_formatter.py") (lit "primary.txt")
           (lit "secondary.txt") [] (lit "alpha beta") (lit "gamma")
           eq_refl eq_refl eq_refl).
Defined.

(** ** Output and word lists *)

(** X7. For two successful runs, the outputs are equal exactly when the
    primary word lists are equal and the secondary word lists are equal:
    the output depends on the files only through their words (how the
    whitespace is laid out does not matter), and the two word lists can be
    told from the output. *)
Theorem output_equal_iff_word_lists_equal
    w w' prog prog' path1 path1' path2 path2' extra extra' c1 c1' c2 c2' :
  argv w = prog :: path1 :: path2 :: extra ->
  fs w path1 = Text c1 -> fs w path2 = Text c2 ->
  argv w' = prog' :: path1' :: path2' :: extra' ->
  fs w' path1' = Text c1' -> fs w' path2' = Text c2' ->
  stdout w = stdout w' <-> split c1 = split c1' /\ split c2 = split c2'.
Proof.
  intros Ha H1 H2 Ha' H1' H2'. split.
  - intros H. apply (f_equal lines) in H.
    rewrite (lines_two_files _ Ha H1 H2) in H.
    rewrite (lines_two_files _ Ha' H1' H2') in H.
    now apply report_inj.
  - intros [E1 E2]. unfold stdout.
    rewrite (run_two_files _ Ha H1 H2), (run_two_files _ Ha' H1' H2').
    now rewrite E1, E2.
Qed.

Lemma output_equal_iff_word_lists_equal_witness :
  stdout both_present = stdout both_present_reformatted.
Proof.
  apply (proj2 (@output_equal_iff_word_lists_equal
                  both_present both_present_reformatted
                  (lit "keyword_formatter.py") (lit "keyword_formatter.py")
                  (lit "primary.txt") (lit "a") (lit "secondary.txt") (lit "b")
                  [] [lit "--verbose"]
                  (lit "alpha beta")
                  ([32; 32] ++ lit "alpha" ++ [cr; nl] ++ lit "beta" ++ [cr; nl])
                  (lit "gamma") (tab :: lit "gamma")
                  eq_refl eq_refl eq_refl eq_refl eq_refl eq_refl)).
  split; reflexivity.
Defined.

(** X8. No character is lost and none is invented: the tokens read back
    from the primary block, put end to end, are exactly the characters of
    the primary file that are not whitespace, in order; likewise for the
    secondary block and file. *)
Theorem blocks_hold_all_non_whitespace w prog path1 path2 extra c1 c2 :
  argv w = prog :: path1 :: path2 :: extra ->
  fs w path1 = Text c1 -> fs w path2 = Text c2 ->
  concat (map token_of_line
            (block (lit "primary_keywords: vec![") (lines (stdout w))))
  = filter (fun c => negb (isspace c)) c1
  /\ concat (map token_of_line
               (block (lit "secondary_keywords: vec![") (lines (stdout w))))
     = filter (fun c => negb (isspace c)) c2.
Proof.
  intros Hargv H1 H2. rewrite (lines_two_files _ Hargv H1 H2).
  rewrite block_primary, block_secondary, !map_token_of_line.
  unfold split. rewrite !concat_split_from. split; reflexivity.
Qed.

Lemma blocks_hold_all_non_whitespace_witness :
  concat (map token_of_line
            (block (lit "primary_keywords: vec![")
               (lines (stdout both_present_reformatted))))
  = lit "alphabeta"
  /\ concat (map token_of_line
               (block (lit "secondary_keywords: vec![")
                  (lines (stdout both_present_reformatted))))
     = lit "gamma".
Proof.
  exact (@blocks_hold_all_non_whitespace both_present_reformatted
           (lit "keyword_formatter.py") (lit "a") (lit "b") [lit "--verbose"]
           ([32; 32] ++ lit "alpha" ++ [cr; nl] ++ lit "beta" ++ [cr; nl])
           (tab :: lit "gamma") eq_refl eq_refl eq_refl).
Defined.

(** X9. Putting two word files together, with some whitespace between
    them, puts their blocks together: the primary block for the joined
    file is the primary block for the first part followed by the primary
    block for the second part. *)
Theorem joined_file_joins_blocks
    w wa wb prog proga progb path pa pb path2 pa2 pb2 extra extraa extrab
    s sp t c2 ca2 cb2 :
  argv w = prog :: path :: path2 :: extra ->
  fs w path = Text (s ++ sp ++ t) -> fs w path2 = Text c2 ->
  argv wa = proga :: pa :: pa2 :: extraa ->
  fs wa pa = Text s -> fs wa pa2 = Text ca2 ->
  argv wb = progb :: pb :: pb2 :: extrab ->
  fs wb pb = Text t -> fs wb pb2 = Text cb2 ->
  is_blank sp = true -> sp <> [] ->
  block (lit "primary_keywords: vec![") (lines (stdout w))
  = block (lit "primary_keywords: vec![") (lines (stdout wa))
    ++ block (lit "primary_keywords: vec![") (lines (stdout wb)).
Proof.
  intros Ha H1 H2 Haa Ha1 Ha2 Hab Hb1 Hb2 Hsp Hne.
  rewrite (lines_two_files _ Ha H1 H2), (lines_two_files _ Haa Ha1 Ha2),
    (lines_two_files _ Hab Hb1 Hb2).
  rewrite !block_primary, <- map_app. f_equal.
  unfold split. now apply split_from_app_blank.
Qed.

Lemma joined_file_joins_blocks_witness :
  block (lit "primary_keywords: vec![") (lines (stdout both_parts))
  = block (lit "primary_keywords: vec![") (lines (stdout first_part))
    ++ block (lit "primary_keywords: vec![") (lines (stdout second_part)).
Proof.
  apply (@joined_file_joins_blocks both_parts first_part second_part
           (lit "keyword_formatter.py") (lit "keyword_formatter.py")
           (lit "keyword_formatter.py")
           (lit "all.txt") (lit "one.txt") (lit "two.txt")
           (lit "types.txt") (lit "other.txt") (lit "other.txt")
           [] [] [] (lit "if else") [nl] (lit "while")
           (lit "u8 i8") (lit "u8") (lit "u8")
           eq_refl eq_refl eq_refl eq_refl eq_refl eq_refl
           eq_refl eq_refl eq_refl eq_refl).
  discriminate.
Defined.

(** X11. The per-word lines are exactly the lines of the output that start
    with a tab: keeping those lines and stripping the wrapper from each
    gives the primary words followed by the secondary words. *)
Theorem tab_lines_are_the_words w prog path1 path2 extra c1 c2 :
  argv w = prog :: path1 :: path2 :: extra ->
  fs w path1 = Text c1 -> fs w path2 = Text c2 ->
  map token_of_line (filter starts_with_tab (lines (stdout w)))
  = split c1 ++ split c2.
Proof.
  intros Hargv H1 H2. rewrite (lines_two_files _ Hargv H1 H2).
  rewrite filter_tab_report, map_app, !map_token_of_line. reflexivity.
Qed.

Lemma tab_lines_are_the_words_witness :
  map token_of_line (filter starts_with_tab (lines (stdout both_present)))
  = [lit "alpha"; lit "beta"; lit "gamma"].
Proof.
  exact (@tab_lines_are_the_words both_present
           (lit "keyword_formatter.py") (lit "primary.txt")
           (lit "secondary.txt") [] (lit "alpha beta") (lit "gamma")
           eq_refl eq_refl eq_refl).
Defined.
